(** * regelverk-python: a shallow embedding of the scaffold

    The repository has three layers.  The presentation layer
    (src/presentation/api) holds a FastAPI application with a health
    check and three placeholder routers; the infrastructure layer holds
    the environment-driven [Settings] class and the [get_db_session]
    generator.  The domain packages (specifications, policies,
    factories, ports) consist of module docstrings alone and the only
    domain declaration is the empty exception class [DomainException]:
    they define no function that could be embedded.

    Python dictionaries with string keys are finite maps
    [gmap string string]; the handlers, which take no parameter, are
    functions of [unit]. *)

From stdpp Require Import base gmap strings list.
From Stdlib Require Import ZArith.

Open Scope string_scope.

(** ** Presentation layer *)

Module Presentation.

(** The part of an HTTP request that routing looks at, and the parts
    it does not look at. *)
Inductive http_method := GET | POST | PUT | DELETE | PATCH | HEAD | OPTIONS.

#[export] Instance http_method_eq_dec : EqDecision http_method.
Proof. solve_decision. Defined.

Record request := {
  req_method : http_method;
  req_path : string;
  req_query : list (string * string);
  req_headers : list (string * string);
  req_body : string
}.

Record response := {
  status_code : nat;
  json : gmap string string
}.

(** A path operation: decorator arguments and the decorated function. *)
Record route := {
  route_method : http_method;
  route_path : string;
  endpoint : unit -> gmap string string
}.

(** [APIRouter(prefix=..., tags=...)] with the routes registered on it. *)
Record APIRouter := {
  prefix : string;
  tags : list string;
  routes : list route
}.

(** admission_routes.py *)
Definition get_admission_info (_ : unit) : gmap string string :=
  {[ "message" := "Admission API" ]}.

Definition admission_router : APIRouter :=
  {| prefix := "/api/v1/admission";
     tags := ["admission"];
     routes := [ {| route_method := GET; route_path := "/";
                    endpoint := get_admission_info |} ] |}.

(** student_routes.py *)
Definition get_students_info (_ : unit) : gmap string string :=
  {[ "message" := "Student API" ]}.

Definition student_router : APIRouter :=
  {| prefix := "/api/v1/students";
     tags := ["students"];
     routes := [ {| route_method := GET; route_path := "/";
                    endpoint := get_students_info |} ] |}.

(** quota_routes.py *)
Definition get_quotas_info (_ : unit) : gmap string string :=
  {[ "message" := "Quota API" ]}.

Definition quota_router : APIRouter :=
  {| prefix := "/api/v1/quotas";
     tags := ["quotas"];
     routes := [ {| route_method := GET; route_path := "/";
                    endpoint := get_quotas_info |} ] |}.

(** main.py *)
Definition health_check (_ : unit) : gmap string string :=
  {[ "status" := "ok" ]}.

(** [app.include_router(r)]: every route of [r] is added to the
    application under the router's prefix, after the routes already
    registered.  The framework puts the prefix in front of a path when
    the route is declared on the router and the model when the router is
    included; the table of the application is the same. *)
Definition include_router (app : list route) (r : APIRouter) : list route :=
  app ++ map (fun rt => {| route_method := route_method rt;
                           route_path := prefix r ++ route_path rt;
                           endpoint := endpoint rt |}) (routes r).

(** The path operations that the source declares for the application of
    main.py: the health route is registered by its decorator, then the
    three routers are included in source order.  The documentation
    routes that the framework adds on its own and the CORS middleware of
    main.py are not part of this table. *)
Definition app : list route :=
  include_router
    (include_router
       (include_router
          [ {| route_method := GET; route_path := "/health";
               endpoint := health_check |} ]
          admission_router)
       student_router)
    quota_router.

(** Paths are compared as literal strings, which is what the framework's
    matching comes to for paths without parameters, the only kind the
    source declares. *)
Definition route_matches (rq : request) (rt : route) : bool :=
  bool_decide (route_method rt = req_method rq)
  && String.eqb (route_path rt) (req_path rq).

(** Dispatch: the first registered route whose method and path equal
    the request's is called with no argument, and its dictionary is
    the JSON body of a 200 response.  [None] says that none of the
    routes of the table matches; what the framework then does (a
    redirect to the slash variant, a 404 or 405, a preflight answer of
    the middleware) is outside the model. *)
Definition handle (rs : list route) (rq : request) : option response :=
  match List.find (route_matches rq) rs with
  | Some rt => Some {| status_code := 200; json := endpoint rt tt |}
  | None => None
  end.

Definition get (path : string) (q h : list (string * string)) (b : string)
  : request :=
  {| req_method := GET; req_path := path;
     req_query := q; req_headers := h; req_body := b |}.

End Presentation.

(** ** Infrastructure: configuration (settings.py) *)

Module Config.

Record Settings := {
  ENV : string;
  DEBUG : bool;
  DATABASE_URL : string;
  API_HOST : string;
  API_PORT : Z;
  LOG_LEVEL : string
}.

(** What a failed construction reports: every field whose input was
    rejected, in declaration order and with that input, and every entry
    of .env that was rejected as undeclared. *)
Record ValidationError := {
  invalid : list (string * string);
  forbidden : gmap string string
}.

Inductive result (A : Type) :=
| Ok (a : A)
| Err (e : ValidationError).
Arguments Ok {A} a.
Arguments Err {A} e.

(** The validation of one field. *)
Inductive validated (A : Type) :=
| Valid (a : A)
| Invalid (name raw : string).
Arguments Valid {A} a.
Arguments Invalid {A} name raw.

Definition errors {A} (v : validated A) : list (string * string) :=
  match v with
  | Valid _ => []
  | Invalid name raw => [(name, raw)]
  end.

(** The names under which the class declares its fields, in order. *)
Definition field_names : list string :=
  ["ENV"; "DEBUG"; "DATABASE_URL"; "API_HOST"; "API_PORT"; "LOG_LEVEL"].

Section Loading.

(** The settings library's coercion of a raw string to the annotated
    type of a field.  Which spellings it accepts is the library's
    business; the class only fixes the types. *)
Variable parse_bool : string -> option bool.
Variable parse_int : string -> option Z.

(** [model_config] does not set [extra], so the library's default for
    settings classes applies: an entry of .env under a name that is not
    a field is forbidden.  Whether an undeclared entry is passed over
    because of its value (an empty one) is again the library's
    business. *)
Variable skip_extra : string -> bool.

(** The process environment and the entries of the file ".env"
    ([env_file=".env"]). *)
Variable environ : gmap string string.
Variable dotenv : gmap string string.

(** [case_sensitive=True]: a field is looked up under exactly its
    declared name.  An environment variable takes precedence over an
    entry of the .env file. *)
Definition source_value (name : string) : option string :=
  match environ !! name with
  | Some raw => Some raw
  | None => dotenv !! name
  end.

(** A [str] field takes any value. *)
Definition str_field (name default : string) : string :=
  match source_value name with
  | Some raw => raw
  | None => default
  end.

Definition bool_field (name : string) (default : bool) : validated bool :=
  match source_value name with
  | Some raw =>
      match parse_bool raw with
      | Some b => Valid b
      | None => Invalid name raw
      end
  | None => Valid default
  end.

Definition int_field (name : string) (default : Z) : validated Z :=
  match source_value name with
  | Some raw =>
      match parse_int raw with
      | Some n => Valid n
      | None => Invalid name raw
      end
  | None => Valid default
  end.

(** The entries of .env that reach the validation without belonging to
    a field.  The environment is only ever asked for the six names, so
    it contributes none. *)
Definition extra_entries : gmap string string :=
  filter (fun kv => (kv.1 ∉ field_names) /\ skip_extra kv.2 = false) dotenv.

(** [Settings()]: every field takes the value found for its name or
    else the default written in the class body.  All fields are
    validated, and the construction fails with everything that was
    rejected: the inputs of DEBUG and API_PORT that the coercions
    refuse and the undeclared entries of .env. *)
Definition Settings_init : result Settings :=
  let debug := bool_field "DEBUG" false in
  let api_port := int_field "API_PORT" 8000%Z in
  match debug, api_port with
  | Valid d, Valid p =>
      if bool_decide (extra_entries = ∅)
      then Ok {| ENV := str_field "ENV" "development";
                 DEBUG := d;
                 DATABASE_URL :=
                   str_field "DATABASE_URL" "sqlite:///./regelverk.db";
                 API_HOST := str_field "API_HOST" "0.0.0.0";
                 API_PORT := p;
                 LOG_LEVEL := str_field "LOG_LEVEL" "INFO" |}
      else Err {| invalid := []; forbidden := extra_entries |}
  | _, _ =>
      Err {| invalid := errors debug ++ errors api_port;
             forbidden := extra_entries |}
  end.

(** Neither source has an entry under the name of a field. *)
Definition no_override : Prop :=
  Forall (fun name => environ !! name = None /\ dotenv !! name = None)
         field_names.

End Loading.

End Config.


(** ** Infrastructure: session management (database.py) *)

Module Persistence.

(** Sessions live in a store shared by the generator and its consumer;
    a session is known by its address there. *)
Inductive session_status := SessionOpen | SessionClosed.

Abbreviation session := nat (only parsing).
Abbreviation store := (gmap nat session_status) (only parsing).

(** An exception is known by what it carries. *)
Abbreviation exn := string (only parsing).

(** [SessionLocal()]: a new open session at an address not yet in use. *)
Definition SessionLocal (st : store) : session * store :=
  let s := fresh (dom st) in (s, <[s := SessionOpen]> st).

(** [session.close()] *)
Definition close (s : session) (st : store) : store :=
  <[s := SessionClosed]> st.

(** The frame of [get_db_session]: not yet started, suspended at the
    [yield] inside the [try] with its local [session], or finished. *)
Inductive generator :=
| GenCreated
| GenSuspended (s : session)
| GenFinished.

(** What a resumption hands back to the caller. *)
Inductive signal :=
| Yielded (s : session)
| StopIteration
| Raised (e : exn).

(** [get_db_session()]: calling a generator function runs none of its
    body. *)
Definition get_db_session : generator := GenCreated.

(** [next(gen)].  From the start the body runs to the [yield]: the
    session is created and handed out.  From the [yield] the [try] body
    is over, the [finally] clause closes the session and the function
    returns. *)
Definition gen_next (g : generator) (st : store)
  : signal * generator * store :=
  match g with
  | GenCreated =>
      let '(s, st') := SessionLocal st in
      (Yielded s, GenSuspended s, st')
  | GenSuspended s => (StopIteration, GenFinished, close s st)
  | GenFinished => (StopIteration, GenFinished, st)
  end.

(** [gen.throw(e)].  At the [yield] the exception is raised inside the
    [try]: the [finally] clause closes the session and the exception
    goes on to the caller.  A generator that has not started, or has
    finished, is outside the [try] and only re-raises. *)
Definition gen_throw (e : exn) (g : generator) (st : store)
  : signal * generator * store :=
  match g with
  | GenCreated => (Raised e, GenFinished, st)
  | GenSuspended s => (Raised e, GenFinished, close s st)
  | GenFinished => (Raised e, GenFinished, st)
  end.

(** How the code that received the session ends. *)
Inductive outcome :=
| Returns
| Raises (e : exn).

(** A consumer is given the session and may do anything to the store. *)
Abbreviation consumer := (nat -> gmap nat session_status ->
                          outcome * gmap nat session_status) (only parsing).

(** One use of the dependency: the generator is created and advanced to
    its [yield], the consumer runs with the session, and the generator
    is then resumed, with [next] after a normal return and with [throw]
    after an exception. *)
Definition use_db_session (c : consumer) (st : store)
  : signal * generator * store :=
  match gen_next get_db_session st with
  | (Yielded s, g, st1) =>
      match c s st1 with
      | (Returns, st2) => gen_next g st2
      | (Raises e, st2) => gen_throw e g st2
      end
  | stopped => stopped
  end.

(** The session a use of the dependency creates in a given store. *)
Definition created_session (st : store) : session := fst (SessionLocal st).

End Persistence.

(** ** Sequences of resumptions of one generator *)

Module Lifecycle.

Import Persistence.

(** What a caller can do to a generator object it holds. *)
Inductive resumption :=
| Next
| Throw (e : string).

Definition resume (op : resumption) (g : generator)
    (st : gmap nat session_status)
  : signal * generator * gmap nat session_status :=
  match op with
  | Next => gen_next g st
  | Throw e => gen_throw e g st
  end.

(** The resumptions are applied in order to the same generator; the
    signals are collected in order. *)
Fixpoint resume_all (ops : list resumption) (g : generator)
    (st : gmap nat session_status)
  : list signal * generator * gmap nat session_status :=
  match ops with
  | [] => ([], g, st)
  | op :: ops' =>
      let '(sig, g1, st1) := resume op g st in
      let '(sigs, g2, st2) := resume_all ops' g1 st1 in
      (sig :: sigs, g2, st2)
  end.

Definition is_yield (sig : signal) : bool :=
  match sig with
  | Yielded _ => true
  | _ => false
  end.

End Lifecycle.

(** ** Sample coercions *)

Module Samples.

(** Two coercions to run the settings with: a few of the spellings a
    settings library accepts, everything else rejected. *)
Definition sample_bool (raw : string) : option bool :=
  if String.eqb raw "true" then Some true
  else if String.eqb raw "false" then Some false
  else None.

Definition sample_int (raw : string) : option Z :=
  if String.eqb raw "8000" then Some 8000%Z
  else if String.eqb raw "9000" then Some 9000%Z
  else None.

(** The library passes over an undeclared entry that has no value. *)
Definition sample_skip (raw : string) : bool := String.eqb raw "".

End Samples.

(** * Properties *)

Import Presentation Config Persistence Lifecycle Samples.

(** ** Routing *)


(** The table of the application, in registration order. *)
Example app_routes :
  map (fun rt => (route_method rt, route_path rt)) app =
  [ (GET, "/health"); (GET, "/api/v1/admission/");
    (GET, "/api/v1/students/"); (GET, "/api/v1/quotas/") ].
Proof. reflexivity. Qed.

(** C1: each of the three routers answers every GET request on its path
    ("/api/v1/admission/", "/api/v1/students/", "/api/v1/quotas/"),
    whatever the query, headers and body, with the one static message
    of that router ("Admission API", "Student API", "Quota API"), and
    each handler is a constant function of its empty input. *)
Theorem routers_return_static_message :
  (forall q h b,
      handle app (Presentation.get "/api/v1/admission/" q h b) =
      Some {| status_code := 200;
              json := {[ "message" := "Admission API" ]} |})
  /\ (forall q h b,
      handle app (Presentation.get "/api/v1/students/" q h b) =
      Some {| status_code := 200;
              json := {[ "message" := "Student API" ]} |})
  /\ (forall q h b,
      handle app (Presentation.get "/api/v1/quotas/" q h b) =
      Some {| status_code := 200;
              json := {[ "message" := "Quota API" ]} |})
  /\ (forall u, get_admission_info u = {[ "message" := "Admission API" ]})
  /\ (forall u, get_students_info u = {[ "message" := "Student API" ]})
  /\ (forall u, get_quotas_info u = {[ "message" := "Quota API" ]}).
Proof.
  repeat split; intros; reflexivity.
Qed.

(** C2: the application answers GET /health, and the handler returns on
    every invocation exactly the mapping with the single entry
    "status" -> "ok". *)
Theorem health_check_returns_ok :
  (forall q h b,
      handle app (Presentation.get "/health" q h b) =
      Some {| status_code := 200; json := {[ "status" := "ok" ]} |})
  /\ (forall u, health_check u = {[ "status" := "ok" ]})
  /\ (forall u key,
      health_check u !! key =
      if String.eqb key "status" then Some "ok" else None).
Proof.
  split; [|split].
  - intros q h b. reflexivity.
  - intros u. reflexivity.
  - intros u key. unfold health_check.
    destruct (String.eqb_spec key "status") as [->|Hne].
    + apply lookup_singleton_eq.
    + apply lookup_singleton_ne. congruence.
Qed.

(** ** Settings *)

Section SettingsProperties.

Variable parse_bool : string -> option bool.
Variable parse_int : string -> option Z.
Variable skip_extra : string -> bool.

(** A name bound in neither source resolves to nothing. *)
Lemma source_value_absent (environ dotenv : gmap string string)
    (name : string) :
  environ !! name = None -> dotenv !! name = None ->
  source_value environ dotenv name = None.
Proof. intros He Hd. unfold source_value. now rewrite He, Hd. Qed.

Lemma no_override_absent (environ dotenv : gmap string string)
    (name : string) :
  no_override environ dotenv -> In name field_names ->
  source_value environ dotenv name = None.
Proof.
  intros Hno Hin. unfold no_override in Hno.
  rewrite List.Forall_forall in Hno.
  destruct (Hno name Hin) as [He Hd]. now apply source_value_absent.
Qed.

(** A .env file that holds entries of declared fields only has nothing
    to forbid. *)
Lemma extra_entries_declared (dotenv : gmap string string) :
  (forall name, is_Some (dotenv !! name) -> In name field_names) ->
  extra_entries skip_extra dotenv = ∅.
Proof.
  intros Hdecl. unfold extra_entries. apply map_empty_filter_2.
  intros name raw Hraw [Hundeclared _]. apply Hundeclared.
  apply list_elem_of_In, Hdecl. now exists raw.
Qed.

(** With nothing to forbid, the outcome is decided by the two typed
    fields. *)
Lemma Settings_init_no_extra (environ dotenv : gmap string string) :
  extra_entries skip_extra dotenv = ∅ ->
  Settings_init parse_bool parse_int skip_extra environ dotenv =
  match bool_field parse_bool environ dotenv "DEBUG" false,
        int_field parse_int environ dotenv "API_PORT" 8000 with
  | Valid d, Valid p =>
      Ok {| ENV := str_field environ dotenv "ENV" "development";
            DEBUG := d;
            DATABASE_URL :=
              str_field environ dotenv "DATABASE_URL"
                "sqlite:///./regelverk.db";
            API_HOST := str_field environ dotenv "API_HOST" "0.0.0.0";
            API_PORT := p;
            LOG_LEVEL := str_field environ dotenv "LOG_LEVEL" "INFO" |}
  | vd, vp => Err {| invalid := errors vd ++ errors vp; forbidden := ∅ |}
  end.
Proof.
  intros Hex. unfold Settings_init. rewrite Hex.
  rewrite bool_decide_eq_true_2 by reflexivity.
  destruct (bool_field parse_bool environ dotenv "DEBUG" false),
           (int_field parse_int environ dotenv "API_PORT" 8000);
    reflexivity.
Qed.

(** C9, as amended: when neither the environment nor the .env file has
    an entry under the name of a field, and the .env file has no entry
    that is forbidden as undeclared, Settings() is constructed and holds
    exactly ENV="development", DEBUG=False,
    DATABASE_URL="sqlite:///./regelverk.db", API_HOST="0.0.0.0",
    API_PORT=8000 and LOG_LEVEL="INFO". *)
Theorem Settings_defaults (environ dotenv : gmap string string) :
  no_override environ dotenv ->
  extra_entries skip_extra dotenv = ∅ ->
  Settings_init parse_bool parse_int skip_extra environ dotenv =
  Ok {| ENV := "development";
        DEBUG := false;
        DATABASE_URL := "sqlite:///./regelverk.db";
        API_HOST := "0.0.0.0";
        API_PORT := 8000;
        LOG_LEVEL := "INFO" |}.
Proof.
  intros Hno Hex. rewrite (Settings_init_no_extra _ _ Hex).
  unfold bool_field, int_field, str_field.
  rewrite !(no_override_absent environ dotenv)
    by (assumption || (simpl; tauto)).
  reflexivity.
Qed.


(** X9: only DEBUG and API_PORT can make the construction fail.  For a .env
    file that holds entries of declared fields only, Settings() is
    constructed exactly when the value found for DEBUG, if any, is
    accepted as a bool and the value found for API_PORT, if any, is
    accepted as an int. *)
Lemma Settings_init_succeeds_iff (environ dotenv : gmap string string) :
  (forall name, is_Some (dotenv !! name) -> In name field_names) ->
  (exists s,
      Settings_init parse_bool parse_int skip_extra environ dotenv = Ok s) <->
  (forall raw, source_value environ dotenv "DEBUG" = Some raw ->
               is_Some (parse_bool raw))
  /\ (forall raw, source_value environ dotenv "API_PORT" = Some raw ->
                  is_Some (parse_int raw)).
Proof.
  intros Hdecl.
  rewrite (Settings_init_no_extra _ _ (extra_entries_declared _ Hdecl)).
  unfold bool_field, int_field.
  destruct (source_value environ dotenv "DEBUG") as [rawd|];
    [destruct (parse_bool rawd) eqn:Hd|];
    (destruct (source_value environ dotenv "API_PORT") as [rawp|];
     [destruct (parse_int rawp) eqn:Hp|]);
    (split;
     [ intros [s Hs]; try discriminate;
       split; intros raw [= <-] || intros raw [=]; eauto
     | intros [H1 H2];
       try (destruct (H1 _ eq_refl) as [? ?]; congruence);
       try (destruct (H2 _ eq_refl) as [? ?]; congruence);
       eauto ]).
Qed.

End SettingsProperties.

(** Lower-case names do not reach the upper-case fields
    ([case_sensitive=True]). *)
Lemma Settings_defaults_witness :
  Settings_init sample_bool sample_int sample_skip
    {[ "debug" := "true"; "api_port" := "9000" ]} ∅ =
  Ok {| ENV := "development";
        DEBUG := false;
        DATABASE_URL := "sqlite:///./regelverk.db";
        API_HOST := "0.0.0.0";
        API_PORT := 8000;
        LOG_LEVEL := "INFO" |}.
Proof.
  apply Settings_defaults.
  - unfold no_override, field_names.
    repeat constructor; vm_compute; reflexivity.
  - vm_compute. reflexivity.
Defined.

(** C9, as stated, fails: a .env file whose only entry is the lower-case
    api_port=9000 overrides no field, yet the construction does not
    give the defaults; it fails, and the error holds the undeclared
    entry. *)
Lemma Settings_defaults_undeclared_entry :
  no_override {[ "debug" := "true" ]} {[ "api_port" := "9000" ]}
  /\ Settings_init sample_bool sample_int sample_skip
       {[ "debug" := "true" ]} {[ "api_port" := "9000" ]} =
     Err {| invalid := []; forbidden := {[ "api_port" := "9000" ]} |}.
Proof.
  split.
  - unfold no_override, field_names.
    repeat constructor; vm_compute; reflexivity.
  - vm_compute. reflexivity.
Qed.


Lemma Settings_init_succeeds_iff_witness :
  (exists s, Settings_init sample_bool sample_int sample_skip
               {[ "DEBUG" := "yes please" ]} {[ "API_PORT" := "9000" ]} = Ok s)
  <->
  (forall raw,
      source_value {[ "DEBUG" := "yes please" ]} {[ "API_PORT" := "9000" ]}
        "DEBUG" = Some raw -> is_Some (sample_bool raw))
  /\ (forall raw,
      source_value {[ "DEBUG" := "yes please" ]} {[ "API_PORT" := "9000" ]}
        "API_PORT" = Some raw -> is_Some (sample_int raw)).
Proof.
  apply Settings_init_succeeds_iff.
  intros name [raw Hraw].
  apply lookup_singleton_Some in Hraw as [<- _]. simpl. tauto.
Defined.

(** ** Session lifecycle *)

Lemma close_closed (s : nat) (st : gmap nat session_status) :
  close s st !! s = Some SessionClosed.
Proof. unfold close. apply lookup_insert_eq. Qed.

Lemma close_other (s s' : nat) (st : gmap nat session_status) :
  s <> s' -> close s st !! s' = st !! s'.
Proof. intros Hne. unfold close. now apply lookup_insert_ne. Qed.

(** The session handed out is new and open. *)
Lemma SessionLocal_fresh (st : gmap nat session_status) :
  st !! created_session st = None
  /\ snd (SessionLocal st) !! created_session st = Some SessionOpen.
Proof.
  unfold created_session, SessionLocal; simpl. split.
  - apply not_elem_of_dom. apply is_fresh.
  - apply lookup_insert_eq.
Qed.

Lemma gen_next_created (st : gmap nat session_status) :
  gen_next get_db_session st =
  (Yielded (created_session st),
   GenSuspended (created_session st),
   snd (SessionLocal st)).
Proof. reflexivity. Qed.

(** Leaving the [yield] by either door runs the [finally] clause. *)
Lemma gen_next_suspended (s : nat) (st : gmap nat session_status) :
  gen_next (GenSuspended s) st = (StopIteration, GenFinished, close s st).
Proof. reflexivity. Qed.

Lemma gen_throw_suspended (e : string) (s : nat)
    (st : gmap nat session_status) :
  gen_throw e (GenSuspended s) st = (Raised e, GenFinished, close s st).
Proof. reflexivity. Qed.

(** A finished generator closes nothing twice. *)
Lemma gen_next_finished (st : gmap nat session_status) :
  gen_next GenFinished st = (StopIteration, GenFinished, st).
Proof. reflexivity. Qed.

(** C10: for every use of get_db_session, with any consumer and any
    store, the session the generator creates is closed once the consumer
    has finished, both when the consumer returns (the generator then
    stops) and when it raises (the same exception then leaves the
    generator); the generator is finished in both cases. *)
Theorem get_db_session_closes
    (c : nat -> gmap nat session_status -> outcome * gmap nat session_status)
    (st : gmap nat session_status) :
  let s := created_session st in
  st !! s = None
  /\ exists sig st',
       use_db_session c st = (sig, GenFinished, st')
       /\ st' !! s = Some SessionClosed
       /\ match fst (c s (snd (SessionLocal st))) with
          | Returns => sig = StopIteration
          | Raises e => sig = Raised e
          end.
Proof.
  cbv zeta. split; [apply SessionLocal_fresh|].
  unfold use_db_session. rewrite gen_next_created.
  destruct (c (created_session st) (snd (SessionLocal st)))
    as [[|e] st2] eqn:Hc; simpl fst.
  - rewrite gen_next_suspended.
    exists StopIteration, (close (created_session st) st2).
    repeat split. apply close_closed.
  - rewrite gen_throw_suspended.
    exists (Raised e), (close (created_session st) st2).
    repeat split. apply close_closed.
Qed.

(** Two concrete uses on the empty store: the consumer returns, and the
    consumer raises. *)
Example use_db_session_returns :
  use_db_session (fun s st => (Returns, st)) ∅ =
  (StopIteration, GenFinished, {[ 0 := SessionClosed ]}).
Proof. vm_compute. reflexivity. Qed.

Example use_db_session_raises :
  use_db_session (fun s st => (Raises "boom", st)) ∅ =
  (Raised "boom", GenFinished, {[ 0 := SessionClosed ]}).
Proof. vm_compute. reflexivity. Qed.

(** X15: a use of the dependency changes no session but its own: every
    other session of the store is left as the consumer left it. *)
Lemma use_db_session_frame
    (c : nat -> gmap nat session_status -> outcome * gmap nat session_status)
    (st : gmap nat session_status) (s' : nat) :
  s' <> created_session st ->
  snd (use_db_session c st) !! s' =
  snd (c (created_session st) (snd (SessionLocal st))) !! s'.
Proof.
  intros Hne. unfold use_db_session. rewrite gen_next_created.
  destruct (c (created_session st) (snd (SessionLocal st)))
    as [[|e] st2]; simpl; apply close_other; congruence.
Qed.

(** ** Precedence of routes *)



(** ** The generator over any sequence of resumptions *)

Lemma resume_all_finished (ops : list resumption)
    (st : gmap nat session_status) :
  exists sigs,
    resume_all ops GenFinished st = (sigs, GenFinished, st)
    /\ forallb (fun sig => negb (is_yield sig)) sigs = true.
Proof.
  induction ops as [|op ops [sigs [IH Hny]]]; simpl.
  - exists []. split; reflexivity.
  - destruct op as [|e]; simpl; rewrite IH.
    + exists (StopIteration :: sigs). split; [reflexivity | exact Hny].
    + exists (Raised e :: sigs). split; [reflexivity | exact Hny].
Qed.

(** The four shapes of a run: nothing done, suspended after one [next],
    finished after a second resumption of either kind, and finished at
    once by a [throw] before the first [next]. *)
Lemma resume_all_cases (ops : list resumption)
    (st : gmap nat session_status) :
  let s := created_session st in
  match ops with
  | [] => resume_all ops get_db_session st = ([], GenCreated, st)
  | [Next] =>
      resume_all ops get_db_session st =
      ([Yielded s], GenSuspended s, <[s := SessionOpen]> st)
  | Next :: _ :: _ =>
      exists sigs,
        resume_all ops get_db_session st =
        (Yielded s :: sigs, GenFinished,
         close s (<[s := SessionOpen]> st))
        /\ forallb (fun sig => negb (is_yield sig)) sigs = true
  | Throw e :: _ =>
      exists sigs,
        resume_all ops get_db_session st = (Raised e :: sigs, GenFinished, st)
        /\ forallb (fun sig => negb (is_yield sig)) sigs = true
  end.
Proof.
  cbv zeta. destruct ops as [|[|e] rest]; [reflexivity| |].
  - destruct rest as [|op2 ops]; [reflexivity|].
    cbn [resume_all resume gen_next get_db_session].
    unfold SessionLocal at 1.
    change (fresh (dom st)) with (created_session st).
    destruct op2 as [|e2]; cbn [resume gen_next gen_throw];
      destruct (resume_all_finished ops
                  (close (created_session st)
                     (<[created_session st := SessionOpen]> st)))
        as [sigs [-> Hny]].
    + exists (StopIteration :: sigs). split; [reflexivity | exact Hny].
    + exists (Raised e2 :: sigs). split; [reflexivity | exact Hny].
  - cbn [resume_all resume gen_throw get_db_session].
    destruct (resume_all_finished rest st) as [sigs [-> Hny]].
    exists sigs. split; [reflexivity | exact Hny].
Qed.

(** X13: whatever is done to one generator, it touches no session but the
    one it creates, and it hands out a session at most once, as the
    first signal. *)
Theorem generator_touches_own_session (ops : list resumption)
    (st : gmap nat session_status) :
  exists sigs g st',
    resume_all ops get_db_session st = (sigs, g, st')
    /\ (forall s', s' <> created_session st -> st' !! s' = st !! s')
    /\ forallb (fun sig => negb (is_yield sig)) (tail sigs) = true.
Proof.
  pose proof (resume_all_cases ops st) as H. cbv zeta in H.
  destruct ops as [|[|e] [|op2 ops]].
  - eexists _, _, _. split; [exact H|]. split; [reflexivity|reflexivity].
  - eexists _, _, _. split; [exact H|]. split; [|reflexivity].
    intros s' Hne. apply lookup_insert_ne. congruence.
  - destruct H as [sigs [H Hny]]. eexists _, _, _. split; [exact H|].
    split; [|exact Hny].
    intros s' Hne. rewrite close_other by congruence.
    apply lookup_insert_ne. congruence.
  - destruct H as [sigs [H Hny]]. eexists _, _, _. split; [exact H|].
    split; [reflexivity | exact Hny].
  - destruct H as [sigs [H Hny]]. eexists _, _, _. split; [exact H|].
    split; [reflexivity | exact Hny].
Qed.

(** X14: a finished generator leaves no open session behind: after any
    sequence of resumptions that finishes it, the session it created is
    closed, or was never created because an exception was thrown in
    before the first [next]; a generator that is still suspended holds
    its one session open. *)
Theorem generator_finished_not_open (ops : list resumption)
    (st : gmap nat session_status) :
  let s := created_session st in
  exists sigs g st',
    resume_all ops get_db_session st = (sigs, g, st')
    /\ match g with
       | GenCreated => ops = [] /\ st' = st
       | GenSuspended s0 =>
           s0 = s /\ ops = [Next] /\ st' !! s = Some SessionOpen
       | GenFinished =>
           match ops with
           | Next :: _ => st' !! s = Some SessionClosed
           | _ => st' = st /\ st' !! s = None
           end
       end.
Proof.
  cbv zeta. pose proof (resume_all_cases ops st) as H. cbv zeta in H.
  destruct ops as [|[|e] [|op2 ops]].
  - eexists _, _, _. split; [exact H|]. split; reflexivity.
  - eexists _, _, _. split; [exact H|].
    split; [reflexivity|]. split; [reflexivity|]. apply lookup_insert_eq.
  - destruct H as [sigs [H _]]. eexists _, _, _. split; [exact H|].
    apply close_closed.
  - destruct H as [sigs [H _]]. eexists _, _, _. split; [exact H|].
    split; [reflexivity | apply SessionLocal_fresh].
  - destruct H as [sigs [H _]]. eexists _, _, _. split; [exact H|].
    split; [reflexivity | apply SessionLocal_fresh].
Qed.

(** ** Successive uses *)

Lemma use_db_session_store
    (c : nat -> gmap nat session_status -> outcome * gmap nat session_status)
    (st : gmap nat session_status) :
  snd (use_db_session c st) =
  close (created_session st)
        (snd (c (created_session st) (snd (SessionLocal st)))).
Proof.
  unfold use_db_session. rewrite gen_next_created.
  destruct (c (created_session st) (snd (SessionLocal st)))
    as [[|e] st2]; reflexivity.
Qed.

(** X16: every use gets a session of its own: the session created by the
    next use is not the one this use created, and when the next consumer
    starts, this use's session is still closed and its own is open. *)
Theorem use_db_session_next_use
    (c : nat -> gmap nat session_status -> outcome * gmap nat session_status)
    (st : gmap nat session_status) :
  let s1 := created_session st in
  let st1 := snd (use_db_session c st) in
  let s2 := created_session st1 in
  s2 <> s1
  /\ snd (SessionLocal st1) !! s1 = Some SessionClosed
  /\ snd (SessionLocal st1) !! s2 = Some SessionOpen.
Proof.
  cbv zeta. rewrite use_db_session_store.
  set (s1 := created_session st).
  set (st1 := close s1 _).
  assert (Hclosed : st1 !! s1 = Some SessionClosed) by apply close_closed.
  assert (Hne : created_session st1 <> s1).
  { intros Heq. destruct (SessionLocal_fresh st1) as [Hfresh _].
    rewrite Heq in Hfresh. congruence. }
  split; [exact Hne|]. split.
  - unfold SessionLocal. simpl. fold (created_session st1).
    change (fresh (dom st1)) with (created_session st1).
    rewrite lookup_insert_ne by exact Hne. exact Hclosed.
  - apply SessionLocal_fresh.
Qed.

Lemma use_db_session_frame_witness :
  snd (use_db_session (fun s st => (Raises "boom", st))
         {[ 0 := SessionOpen; 1 := SessionClosed ]}) !! 0 =
  snd ((fun s st => (Raises "boom", st))
         (created_session {[ 0 := SessionOpen; 1 := SessionClosed ]})
         (snd (SessionLocal {[ 0 := SessionOpen; 1 := SessionClosed ]}))) !! 0.
Proof.
  apply (use_db_session_frame (fun s st => (Raises "boom", st))).
  vm_compute. discriminate.
Defined.
